(** * SimpleButton: a debounced push button driven by pin interrupts

    A shallow embedding of [simple_button.py] (class [SimpleButton]) and the
    verification of its debounce filter.

    The module runs on MicroPython.  What it imports from the platform
    ([machine.Pin], [utime.ticks_ms], [utime.ticks_diff]) is modelled in the
    first part of the file; the class itself follows, method by method. *)

From Stdlib Require Import ZArith List String Bool Lia Sorted.
Import ListNotations.
Open Scope Z_scope.

(* ================================================================== *)
(** * The platform *)

(** The constants of [machine.Pin] and the period of the millisecond counter
    differ from port to port, so they are an interface. *)
Class Platform := {
  PULL_UP : Z;
  PULL_DOWN : Z;
  IRQ_FALLING : Z;
  IRQ_RISING : Z;
  TICKS_PERIOD : Z
}.

(** The values of the Raspberry Pi Pico port, used for the concrete runs. *)
Definition rp2 : Platform := {|
  PULL_UP := 1;
  PULL_DOWN := 2;
  IRQ_FALLING := 4;
  IRQ_RISING := 8;
  TICKS_PERIOD := 2 ^ 30
|}.

(** [utime.ticks_diff(ticks1, ticks2)]: the signed difference of two counter
    values, shifted forward by half a period, wrapped modulo the period (the
    ports do it with a mask, the period being a power of two), and shifted
    back; its result lies in [[-TICKS_PERIOD/2, TICKS_PERIOD/2 - 1]]. *)
Definition ticks_diff `{Platform} (ticks1 ticks2 : Z) : Z :=
  (ticks1 - ticks2 + TICKS_PERIOD / 2) mod TICKS_PERIOD - TICKS_PERIOD / 2.

(** The electrical level of the input line. *)
Inductive level := Low | High.

(** What [Pin.value()] returns for a level: the int 0 or 1. *)
Definition level_int (l : level) : Z :=
  match l with Low => 0 | High => 1 end.

(* ================================================================== *)
(** * Python values *)

(** [_state] holds what [Pin.value()] returned (an int) or the result of
    [not] on it (a bool). *)
Inductive pyval := VInt (z : Z) | VBool (b : bool).

Definition int_of (v : pyval) : Z :=
  match v with VInt z => z | VBool b => Z.b2z b end.

(** [a == b] and [a != b] on ints and bools: a bool compares as 0 or 1. *)
Definition py_eq (a b : pyval) : bool := int_of a =? int_of b.
Definition py_ne (a b : pyval) : bool := negb (py_eq a b).

Definition truthy (v : pyval) : bool :=
  match v with VInt z => negb (z =? 0) | VBool b => b end.

(** [not v] *)
Definition py_not (v : pyval) : pyval := VBool (negb (truthy v)).

(** The constructor does not trust the type of [debounce_ms]: the argument is
    an int or some other object.  (A bool argument is left out: whether
    [isinstance(True, int)] holds is not the same on every Python.) *)
Inductive pyarg := AInt (z : Z) | ANone | AStr (s : string).

Definition isinstance_int (a : pyarg) : bool :=
  match a with AInt _ => true | _ => false end.

Inductive exn :=
| ValueError (msg : string)
| TypeError.

Inductive result (A : Type) :=
| Ok (a : A)
| Raise (e : exn).
Arguments Ok {A} a.
Arguments Raise {A} e.

(** [a < b]: defined between two ints and between two strings, a [TypeError]
    otherwise. *)
Definition py_lt (a b : pyarg) : result bool :=
  match a, b with
  | AInt x, AInt y => Ok (x <? y)
  | AStr s, AStr t => Ok (String.ltb s t)
  | _, _ => Raise TypeError
  end.

(* ================================================================== *)
(** * machine.Pin *)

Inductive pin_mode := IN | OUT.

(** The one handler this module ever registers. *)
Inductive handler := Bound_irq_handler.

Record Pin := mkPin {
  pin_id : Z;
  pin_mode_of : pin_mode;
  pin_pull : option Z;
  irq_trigger : Z;
  irq_handler : option handler
}.

(** [Pin(id, mode, pull)]: no interrupt is configured yet. *)
Definition Pin_new (id : Z) (mode : pin_mode) (pull : option Z) : Pin :=
  mkPin id mode pull 0 None.

(** [p.irq(trigger=..., handler=...)] *)
Definition Pin_irq (trigger : Z) (h : option handler) (p : Pin) : Pin :=
  mkPin (pin_id p) (pin_mode_of p) (pin_pull p) trigger h.

(* ================================================================== *)
(** * The object *)

(** A callback is known by its identity. *)
Definition callback := nat.

(** The attributes of a [SimpleButton]. *)
Record SimpleButton := mkSimpleButton {
  _pin : Pin;
  _press_callback : option callback;
  _release_callback : option callback;
  _debounce_ms : pyarg;
  _last_time : Z;
  _active_low : bool;
  _state : pyval
}.

Definition set_last_time (t : Z) (self : SimpleButton) : SimpleButton :=
  mkSimpleButton (_pin self) (_press_callback self) (_release_callback self)
    (_debounce_ms self) t (_active_low self) (_state self).

Definition set_state (v : pyval) (self : SimpleButton) : SimpleButton :=
  mkSimpleButton (_pin self) (_press_callback self) (_release_callback self)
    (_debounce_ms self) (_last_time self) (_active_low self) v.

Definition set_pin (p : Pin) (self : SimpleButton) : SimpleButton :=
  mkSimpleButton p (_press_callback self) (_release_callback self)
    (_debounce_ms self) (_last_time self) (_active_low self) (_state self).

(* ================================================================== *)
(** * Effects *)

(** A call of a callback is recorded with the state and the timestamp the
    button holds when the callback runs, which is what the callback finds if
    it queries the button. *)
Inductive effect :=
| E_ticks_ms            (* the clock was read *)
| E_pin_value           (* the pin was sampled *)
| E_call (cb : callback) (seen_state : pyval) (seen_last_time : Z).

(** The surroundings of the button: the millisecond counter, the level on the
    line, and the effects performed so far, oldest first. *)
Record env := mkEnv {
  hw_ticks : Z;
  hw_level : level;
  trace : list effect
}.

(** Computations read the hardware, extend the trace, and may raise. *)
Definition E (A : Type) : Type := env -> result (A * env).

Definition ret {A} (a : A) : E A := fun e => Ok (a, e).

Definition bind {A B} (m : E A) (k : A -> E B) : E B :=
  fun e => match m e with
           | Ok (a, e') => k a e'
           | Raise x => Raise x
           end.

Definition raise {A} (x : exn) : E A := fun _ => Raise x.

Definition lift {A} (r : result A) : E A :=
  fun e => match r with Ok a => Ok (a, e) | Raise x => Raise x end.

Definition emit (ef : effect) : E unit :=
  fun e => Ok (tt, mkEnv (hw_ticks e) (hw_level e) (trace e ++ [ef])).

Declare Scope E_scope.
Delimit Scope E_scope with E.
Notation "x <- m ;; k" := (bind m (fun x => k))
  (at level 61, m at next level, right associativity) : E_scope.
Notation "m ;; k" := (bind m (fun _ => k))
  (at level 61, right associativity) : E_scope.
Open Scope E_scope.

(** [utime.ticks_ms()] *)
Definition ticks_ms : E Z :=
  fun e => Ok (hw_ticks e, mkEnv (hw_ticks e) (hw_level e) (trace e ++ [E_ticks_ms])).

(** [cb()]: the callback runs while the button is [seen]. *)
Definition call (cb : callback) (seen : SimpleButton) : E unit :=
  emit (E_call cb (_state seen) (_last_time seen)).

(** [p.value()] *)
Definition Pin_value (p : Pin) : E Z :=
  fun e => Ok (level_int (hw_level e),
               mkEnv (hw_ticks e) (hw_level e) (trace e ++ [E_pin_value])).

(* ================================================================== *)
(** * class SimpleButton *)

Section Methods.
Context `{Platform}.

(** [pull is not None and pull not in (Pin.PULL_UP, Pin.PULL_DOWN)], for a
    [pull] that is [None] or an int, as it is annotated. *)
Definition bad_pull (pull : option Z) : bool :=
  match pull with
  | None => false
  | Some p => negb ((p =? PULL_UP) || (p =? PULL_DOWN))
  end.

(** [not isinstance(debounce_ms, int) or debounce_ms < 0]; the comparison is
    evaluated only when the first disjunct is false. *)
Definition bad_debounce (debounce_ms : pyarg) : E bool :=
  if negb (isinstance_int debounce_ms) then ret true
  else lift (py_lt debounce_ms (AInt 0)).

Definition __init__ (pin : Z) (press_callback release_callback : option callback)
    (debounce_ms : pyarg) (pull : option Z) (active_low : bool)
  : E SimpleButton :=
  if bad_pull pull then
    raise (ValueError "pull must be Pin.PULL_UP, Pin.PULL_DOWN or None")
  else
    bad <- bad_debounce debounce_ms ;;
    if (bad : bool) then
      raise (ValueError "debounce_ms must be a non-negative int")
    else
      let p := Pin_new pin IN pull in
      initial_physical_state <- Pin_value p ;;
      let st :=
        if active_low then VInt initial_physical_state
        else py_not (VInt initial_physical_state) in
      let p := Pin_irq (Z.lor IRQ_FALLING IRQ_RISING) (Some Bound_irq_handler) p in
      ret (mkSimpleButton p press_callback release_callback debounce_ms
             0 active_low st).

(** [if cb: cb()], on the button as it is at that point. *)
Definition call_if_set (cb : option callback) (self : SimpleButton) : E unit :=
  match cb with
  | Some f => call f self
  | None => ret tt
  end.

Definition _irq_handler (self : SimpleButton) (pin : Pin) : E SimpleButton :=
  now <- ticks_ms ;;
  bounce <- lift (py_lt (AInt (ticks_diff now (_last_time self))) (_debounce_ms self)) ;;
  if (bounce : bool) then ret self
  else
    physical_state <- Pin_value (_pin self) ;;
    let logical_state :=
      if _active_low self then VInt physical_state
      else py_not (VInt physical_state) in
    if py_ne logical_state (_state self) then
      let self := set_last_time now self in
      let self := set_state logical_state self in
      (if py_eq (_state self) (VInt 0)
       then call_if_set (_press_callback self) self
       else call_if_set (_release_callback self) self) ;;
      ret self
    else ret self.

Definition is_pressed (self : SimpleButton) : bool :=
  py_eq (_state self) (VInt 0).

Definition is_released (self : SimpleButton) : bool :=
  py_eq (_state self) (VInt 1).

(** [self._pin.irq(handler=None)]; the trigger keeps its default, both
    edges. *)
Definition deinit (self : SimpleButton) : E SimpleButton :=
  ret (set_pin (Pin_irq (Z.lor IRQ_FALLING IRQ_RISING) None (_pin self)) self).

End Methods.

(* ================================================================== *)
(** * Driving the button *)

(** What can happen to a constructed button.  [Handler now lvl] is one
    invocation of [_irq_handler] while the counter reads [now] and the line is
    at [lvl]; [Edge now lvl] is an edge on the line, which the platform turns
    into an invocation only while a handler is registered on the pin. *)
Inductive op :=
| Handler (now : Z) (lvl : level)
| Edge (now : Z) (lvl : level)
| Deinit.

Definition set_hw (now : Z) (lvl : level) : E unit :=
  fun e => Ok (tt, mkEnv now lvl (trace e)).

Section Driver.
Context `{Platform}.

Definition step (o : op) (self : SimpleButton) : E SimpleButton :=
  match o with
  | Handler now lvl => set_hw now lvl ;; _irq_handler self (_pin self)
  | Edge now lvl =>
      set_hw now lvl ;;
      match irq_handler (_pin self) with
      | Some Bound_irq_handler => _irq_handler self (_pin self)
      | None => ret self
      end
  | Deinit => deinit self
  end.

Fixpoint run (ops : list op) (self : SimpleButton) : E SimpleButton :=
  match ops with
  | [] => ret self
  | o :: ops' => self' <- step o self ;; run ops' self'
  end.

(** The buttons obtained from the constructor by any sequence of
    operations. *)
Definition reachable (self : SimpleButton) : Prop :=
  exists pin press_cb release_cb debounce_ms pull active_low e0 self0 e1 ops e e',
    __init__ pin press_cb release_cb debounce_ms pull active_low e0 = Ok (self0, e1)
    /\ run ops self0 e = Ok (self, e').

End Driver.

(* ================================================================== *)
(** * Reading the state *)

Inductive logical := Pressed | Released.

(** 0 is pressed, anything else is released. *)
Definition logical_of (v : pyval) : logical :=
  if py_eq v (VInt 0) then Pressed else Released.

(** The polarity rule in terms of the line: an active-low button is pressed
    while the line is low, an active-high one while it is high. *)
Definition candidate (active_low : bool) (lvl : level) : logical :=
  match active_low, lvl with
  | true, Low => Pressed
  | true, High => Released
  | false, Low => Released
  | false, High => Pressed
  end.

(** The callback registered for a logical state. *)
Definition callback_for (self : SimpleButton) (l : logical) : option callback :=
  match l with
  | Pressed => _press_callback self
  | Released => _release_callback self
  end.

Definition calls_of (cb : option callback) (seen : SimpleButton) : list effect :=
  match cb with
  | Some f => [E_call f (_state seen) (_last_time seen)]
  | None => []
  end.

(** The callbacks in a trace, in the order they were called. *)
Fixpoint fired (tr : list effect) : list callback :=
  match tr with
  | [] => []
  | E_call f _ _ :: tr' => f :: fired tr'
  | _ :: tr' => fired tr'
  end.

(** What the constructor establishes and every operation keeps: the debounce
    interval is a non-negative int and the state is 0 or 1 (as an int or as a
    bool). *)
Definition wf (self : SimpleButton) : Prop :=
  (exists d, _debounce_ms self = AInt d /\ 0 <= d)
  /\ (int_of (_state self) = 0 \/ int_of (_state self) = 1).

(** The environment after some more effects. *)
Definition after (e : env) (l : list effect) : env :=
  mkEnv (hw_ticks e) (hw_level e) (trace e ++ l).

(** The value the polarity rule gives for a raw reading of the pin, as an
    int: the reading itself, or its complement. *)
Definition polarity (active_low : bool) (raw : Z) : Z :=
  if active_low then raw else 1 - raw.

(** The two branches of the polarity rule, as the code computes them. *)
Definition sampled (active_low : bool) (lvl : level) : pyval :=
  if active_low then VInt (level_int lvl) else py_not (VInt (level_int lvl)).

(** The times at which the handler may have run. *)
Fixpoint op_times (ops : list op) : list Z :=
  match ops with
  | [] => []
  | Handler now _ :: ops' => now :: op_times ops'
  | Edge now _ :: ops' => now :: op_times ops'
  | Deinit :: ops' => op_times ops'
  end.

(** A request is an edge when the platform, not a caller, delivers it. *)
Definition is_edge (o : op) : bool :=
  match o with Edge _ _ => true | _ => false end.

(** The constructor's preconditions, in the words of its error messages. *)
Definition nonneg_int (a : pyarg) : Prop :=
  exists z, a = AInt z /\ 0 <= z.

Definition recognized_pull `{Platform} (pull : option Z) : Prop :=
  pull = None \/ pull = Some PULL_UP \/ pull = Some PULL_DOWN.

Section Observations.
Context `{Platform}.

(** The accepted transitions of a run, in order: an operation is one when it
    changes [_state], and it is recorded with the [_last_time] and the
    [_state] it leaves behind. *)
Fixpoint transitions (ops : list op) (self : SimpleButton) (e : env)
  : list (Z * pyval) :=
  match ops with
  | [] => []
  | o :: ops' =>
      match step o self e with
      | Ok (self', e') =>
          (if py_ne (_state self') (_state self)
           then [(_last_time self', _state self')] else [])
          ++ transitions ops' self' e'
      | Raise _ => []
      end
  end.

(** Successive timestamps each lie at least [d] after the one before, by the
    wraparound-safe difference; [prev] is the timestamp before the first. *)
Fixpoint spaced (d : Z) (prev : Z) (stamps : list Z) : Prop :=
  match stamps with
  | [] => True
  | t :: ts => d <= ticks_diff t prev /\ spaced d t ts
  end.

(** The scenario of three edges at [t0], [t0 + 10] and [t0 + 60] on an
    active-low button with a 50 ms debounce interval that starts with the
    line high: press accepted, bounce discarded, release accepted. *)
Definition scenario (t0 : Z) : Prop :=
  forall pin pull press_cb release_cb e0,
    bad_pull pull = false ->
    hw_level e0 = High ->
    exists s0 e1 s1 e2 e3 s3 e4,
      __init__ pin (Some press_cb) (Some release_cb) (AInt 50) pull true e0
        = Ok (s0, e1)
      /\ logical_of (_state s0) = Released
      /\ step (Edge t0 Low) s0 e1 = Ok (s1, e2)
      /\ logical_of (_state s1) = Pressed
      /\ _last_time s1 = t0
      /\ fired (trace e2) = fired (trace e1) ++ [press_cb]
      /\ step (Edge (t0 + 10) High) s1 e2 = Ok (s1, e3)
      /\ fired (trace e3) = fired (trace e2)
      /\ step (Edge (t0 + 60) High) s1 e3 = Ok (s3, e4)
      /\ logical_of (_state s3) = Released
      /\ _last_time s3 = t0 + 60
      /\ fired (trace e4) = fired (trace e3) ++ [release_cb].

End Observations.

(** What one invocation of the handler can do. *)
Inductive outcome `{Platform} (d : Z) (now : Z) (self : SimpleButton) (e : env)
  : SimpleButton -> env -> Prop :=
| Discarded (l : list effect) :
    fired l = [] ->
    outcome d now self e self (mkEnv now (hw_level e) (trace e ++ l))
| Accepted (v : pyval) :
    py_ne v (_state self) = true ->
    d <= ticks_diff now (_last_time self) ->
    (int_of v = 0 \/ int_of v = 1) ->
    outcome d now self e
      (set_state v (set_last_time now self))
      (mkEnv now (hw_level e)
         (trace e ++ [E_ticks_ms; E_pin_value]
                  ++ calls_of (callback_for self (logical_of v))
                       (set_state v (set_last_time now self)))).

(** The configuration no operation touches. *)
Definition kept (self self' : SimpleButton) : Prop :=
  _debounce_ms self' = _debounce_ms self
  /\ _press_callback self' = _press_callback self
  /\ _release_callback self' = _release_callback self
  /\ _active_low self' = _active_low self.

(** The debounced state and its timestamp are the same in both. *)
Definition same_reading (self self' : SimpleButton) : Prop :=
  _state self' = _state self /\ _last_time self' = _last_time self.

(** A stretch of counter values shorter than half the period, in which the
    wraparound-safe difference is the plain one. *)
Definition in_window `{Platform} (lo t : Z) : Prop :=
  lo <= t < lo + TICKS_PERIOD / 2.

(** The callbacks an accepted transition into state [v] calls. *)
Definition callbacks_of (self : SimpleButton) (tr : Z * pyval) : list callback :=
  match callback_for self (logical_of (snd tr)) with
  | Some f => [f]
  | None => []
  end.

(** A button as the constructor leaves it on the Pico: pin 5 with the
    pull-up, 50 ms, callbacks 1 and 2, for a polarity and a level of the line
    at construction. *)
Definition example_button_at (active_low : bool) (lvl : level) : SimpleButton :=
  mkSimpleButton (mkPin 5 IN (Some 1) 12 (Some Bound_irq_handler))
    (Some 1%nat) (Some 2%nat) (AInt 50) 0 active_low (sampled active_low lvl).

(** The active-low one, constructed with the line high. *)
Definition example_button : SimpleButton := example_button_at true High.

(** A press, a bounce and a release. *)
Definition example_ops : list op :=
  [Handler 100 Low; Handler 110 High; Handler 160 High].

Definition example_env : env := mkEnv 0 High [E_pin_value].

(** Each logical state in the list differs from the one before it; [prev]
    is the one before the first. *)
Fixpoint alternating (prev : logical) (l : list logical) : Prop :=
  match l with
  | [] => True
  | x :: xs => x <> prev /\ alternating x xs
  end.

(** [n] calls in which the two callbacks take turns, the first being the one
    for the state opposite to [prev]. *)
Fixpoint taking_turns (press_cb release_cb : callback) (prev : logical) (n : nat)
  : list callback :=
  match n with
  | O => []
  | S n' =>
      match prev with
      | Pressed => release_cb :: taking_turns press_cb release_cb Released n'
      | Released => press_cb :: taking_turns press_cb release_cb Pressed n'
      end
  end.

Definition is_deinit (o : op) : bool :=
  match o with Deinit => true | _ => false end.

(** The operation runs or may run the handler with the line at [lvl]. *)
Definition at_level (lvl : level) (o : op) : Prop :=
  exists now, o = Handler now lvl \/ o = Edge now lvl.

(** A button whose last accepted change was shortly before the counter
    wrapped. *)
Definition example_button_before_wrap : SimpleButton :=
  set_last_time (2 ^ 30 - 10) example_button.

(** The example button constructed with [debounce_ms=0]. *)
Definition example_button_zero : SimpleButton :=
  mkSimpleButton (_pin example_button) (Some 1%nat) (Some 2%nat) (AInt 0) 0
    true (VInt 1).

(* ================================================================== *)
(** * Basic facts *)

Lemma sampled_int (al : bool) (lvl : level) :
  int_of (sampled al lvl) = polarity al (level_int lvl).
Proof. destruct al, lvl; reflexivity. Qed.

Lemma sampled_logical (al : bool) (lvl : level) :
  logical_of (sampled al lvl) = candidate al lvl.
Proof. destruct al, lvl; reflexivity. Qed.

Lemma sampled_bit (al : bool) (lvl : level) :
  int_of (sampled al lvl) = 0 \/ int_of (sampled al lvl) = 1.
Proof. destruct al, lvl; simpl; auto. Qed.

(** On states that are 0 or 1, [!=] is a change of logical state. *)
Lemma py_ne_logical (a b : pyval) :
  (int_of a = 0 \/ int_of a = 1) ->
  (int_of b = 0 \/ int_of b = 1) ->
  py_ne a b = true <-> logical_of a <> logical_of b.
Proof.
  intros Ha Hb. unfold py_ne, logical_of, py_eq. simpl.
  destruct (Z.eqb_spec (int_of a) (int_of b)) as [E | E]; simpl.
  - rewrite E. split; [discriminate | intros N; now elim N].
  - split; [intros _ | reflexivity].
    destruct (Z.eqb_spec (int_of a) 0), (Z.eqb_spec (int_of b) 0);
      try discriminate; lia.
Qed.

Lemma fired_app (l1 l2 : list effect) : fired (l1 ++ l2) = fired l1 ++ fired l2.
Proof.
  induction l1 as [| [ | | f] l1 IH]; simpl; auto. now rewrite IH.
Qed.

Lemma fired_calls_of (cb : option callback) (seen : SimpleButton) :
  fired (calls_of cb seen) = match cb with Some f => [f] | None => [] end.
Proof. destruct cb; reflexivity. Qed.

Section HandlerFacts.
Context `{Platform}.

(** The handler written out as a case analysis, for a button whose debounce
    interval is an int. *)
Lemma _irq_handler_cases (self : SimpleButton) (pin : Pin) (e : env) (d : Z) :
  _debounce_ms self = AInt d ->
  _irq_handler self pin e =
    if ticks_diff (hw_ticks e) (_last_time self) <? d
    then Ok (self, after e [E_ticks_ms])
    else
      let v := sampled (_active_low self) (hw_level e) in
      if py_ne v (_state self)
      then Ok (set_state v (set_last_time (hw_ticks e) self),
               after e ([E_ticks_ms; E_pin_value]
                        ++ calls_of (callback_for self (logical_of v))
                             (set_state v (set_last_time (hw_ticks e) self))))
      else Ok (self, after e [E_ticks_ms; E_pin_value]).
Proof.
  intros Hd. unfold _irq_handler, bind, ticks_ms, lift, py_lt. rewrite Hd.
  destruct (ticks_diff (hw_ticks e) (_last_time self) <? d); [reflexivity |].
  unfold Pin_value; cbn [hw_ticks hw_level trace fst snd].
  fold (sampled (_active_low self) (hw_level e)).
  set (v := sampled (_active_low self) (hw_level e)).
  destruct (py_ne v (_state self)); cbn zeta.
  - unfold logical_of, callback_for. cbn [_state set_state set_last_time
      _press_callback _release_callback].
    destruct (py_eq v (VInt 0)).
    + destruct (_press_callback self); unfold call_if_set, call, emit, ret, after;
        cbn; rewrite <- ?app_assoc; reflexivity.
    + destruct (_release_callback self); unfold call_if_set, call, emit, ret, after;
        cbn; rewrite <- ?app_assoc; reflexivity.
  - unfold ret, after; cbn. rewrite <- app_assoc. reflexivity.
Qed.

End HandlerFacts.

(* ================================================================== *)
(** * The constructor *)

Section Constructor.
Context `{Platform}.

(** The constructor written out: two checks, then the object. *)
Lemma __init___cases (pin : Z) (press_cb release_cb : option callback)
    (debounce_ms : pyarg) (pull : option Z) (active_low : bool) (e : env) :
  __init__ pin press_cb release_cb debounce_ms pull active_low e =
    if bad_pull pull
    then Raise (ValueError "pull must be Pin.PULL_UP, Pin.PULL_DOWN or None")
    else
      match debounce_ms with
      | AInt z =>
          if z <? 0
          then Raise (ValueError "debounce_ms must be a non-negative int")
          else Ok (mkSimpleButton
                     (mkPin pin IN pull (Z.lor IRQ_FALLING IRQ_RISING)
                        (Some Bound_irq_handler))
                     press_cb release_cb (AInt z) 0 active_low
                     (sampled active_low (hw_level e)),
                   after e [E_pin_value])
      | _ => Raise (ValueError "debounce_ms must be a non-negative int")
      end.
Proof.
  unfold __init__. destruct (bad_pull pull); [reflexivity |].
  destruct debounce_ms as [z | | s]; try reflexivity.
  unfold bind, bad_debounce, lift, py_lt; simpl.
  destruct (z <? 0); reflexivity.
Qed.

Lemma __init___ok (pin : Z) (press_cb release_cb : option callback)
    (debounce_ms : pyarg) (pull : option Z) (active_low : bool)
    (e : env) (self : SimpleButton) (e' : env) :
  __init__ pin press_cb release_cb debounce_ms pull active_low e = Ok (self, e') ->
  bad_pull pull = false
  /\ (exists z, debounce_ms = AInt z /\ 0 <= z)
  /\ self = mkSimpleButton
              (mkPin pin IN pull (Z.lor IRQ_FALLING IRQ_RISING)
                 (Some Bound_irq_handler))
              press_cb release_cb debounce_ms 0 active_low
              (sampled active_low (hw_level e))
  /\ e' = after e [E_pin_value].
Proof.
  rewrite __init___cases.
  destruct (bad_pull pull); [discriminate |].
  destruct debounce_ms as [z | | s]; try discriminate.
  destruct (Z.ltb_spec z 0); [discriminate |].
  intros [= <- <-]. repeat split; eauto.
Qed.

Lemma __init___wf (pin : Z) (press_cb release_cb : option callback)
    (debounce_ms : pyarg) (pull : option Z) (active_low : bool)
    (e : env) (self : SimpleButton) (e' : env) :
  __init__ pin press_cb release_cb debounce_ms pull active_low e = Ok (self, e') ->
  wf self.
Proof.
  intros Hi. apply __init___ok in Hi as (_ & (z & -> & Hz) & -> & _).
  split; simpl; [eauto | apply sampled_bit].
Qed.

End Constructor.

(* ================================================================== *)
(** * One operation *)

Section Steps.
Context `{Platform}.

Lemma py_ne_refl (v : pyval) : py_ne v v = false.
Proof. unfold py_ne, py_eq. now rewrite Z.eqb_refl. Qed.

(** A handler that returns has compared the elapsed time with an int. *)
Lemma _irq_handler_int (self : SimpleButton) (pin : Pin) (e : env)
    (r : SimpleButton * env) :
  _irq_handler self pin e = Ok r -> exists d, _debounce_ms self = AInt d.
Proof.
  unfold _irq_handler, bind, ticks_ms, lift, py_lt.
  destruct (_debounce_ms self); try discriminate. eauto.
Qed.

Lemma _irq_handler_outcome (self : SimpleButton) (pin : Pin) (e : env) (d : Z) :
  _debounce_ms self = AInt d ->
  exists self' e',
    _irq_handler self pin e = Ok (self', e')
    /\ outcome d (hw_ticks e) self e self' e'.
Proof.
  intros Hd. rewrite (_irq_handler_cases self pin e d Hd).
  destruct (Z.ltb_spec (ticks_diff (hw_ticks e) (_last_time self)) d).
  - do 2 eexists; split; [reflexivity |]. now apply Discarded.
  - cbn zeta. destruct (py_ne _ _) eqn:Hne.
    + do 2 eexists; split; [reflexivity |].
      apply Accepted; auto using sampled_bit.
    + do 2 eexists; split; [reflexivity |]. now apply Discarded.
Qed.

End Steps.

Section StepFacts.
Context `{Platform}.

Lemma outcome_kept (d now : Z) (self : SimpleButton) (e : env)
    (self' : SimpleButton) (e' : env) :
  outcome d now self e self' e' -> kept self self'.
Proof. destruct 1; repeat split. Qed.

(** Every operation on a button with an int debounce interval returns, and
    either leaves the reading alone and calls nothing, or is an accepted
    transition. *)
Lemma step_summary (o : op) (self : SimpleButton) (e : env) (d : Z) :
  _debounce_ms self = AInt d ->
  exists self' e',
    step o self e = Ok (self', e')
    /\ kept self self'
    /\ ((same_reading self self' /\ fired (trace e') = fired (trace e))
        \/ (py_ne (_state self') (_state self) = true
            /\ d <= ticks_diff (_last_time self') (_last_time self)
            /\ In (_last_time self') (op_times [o])
            /\ (int_of (_state self') = 0 \/ int_of (_state self') = 1)
            /\ fired (trace e')
               = fired (trace e)
                 ++ fired (calls_of (callback_for self (logical_of (_state self'))) self'))).
Proof.
  intros Hd.
  assert (Hh : forall now lvl, exists self' e',
    _irq_handler self (_pin self) (mkEnv now lvl (trace e)) = Ok (self', e')
    /\ kept self self'
    /\ ((same_reading self self' /\ fired (trace e') = fired (trace e))
        \/ (py_ne (_state self') (_state self) = true
            /\ d <= ticks_diff (_last_time self') (_last_time self)
            /\ _last_time self' = now
            /\ (int_of (_state self') = 0 \/ int_of (_state self') = 1)
            /\ fired (trace e')
               = fired (trace e)
                 ++ fired (calls_of (callback_for self (logical_of (_state self'))) self')))).
  { intros now lvl.
    destruct (_irq_handler_outcome self (_pin self) (mkEnv now lvl (trace e)) d Hd)
      as (self' & e' & Hr & Ho).
    exists self', e'. split; [exact Hr |]. split; [eapply outcome_kept; eauto |].
    cbn [hw_ticks hw_level trace] in Ho. inversion Ho; subst.
    - left. repeat split. cbn. rewrite fired_app, H0. apply app_nil_r.
    - right. cbn. repeat split; auto.
      rewrite fired_app. reflexivity. }
  assert (Hin : forall now lvl, exists self' e',
    (set_hw now lvl ;; _irq_handler self (_pin self)) e = Ok (self', e')
    /\ kept self self'
    /\ ((same_reading self self' /\ fired (trace e') = fired (trace e))
        \/ (py_ne (_state self') (_state self) = true
            /\ d <= ticks_diff (_last_time self') (_last_time self)
            /\ In (_last_time self') [now]
            /\ (int_of (_state self') = 0 \/ int_of (_state self') = 1)
            /\ fired (trace e')
               = fired (trace e)
                 ++ fired (calls_of (callback_for self (logical_of (_state self'))) self')))).
  { intros now lvl. destruct (Hh now lvl) as (self' & e' & Hr & Hk & Hc).
    exists self', e'. split; [exact Hr |]. split; [exact Hk |].
    destruct Hc as [Hc | (H1 & H2 & H3 & H4 & H5)]; [left; exact Hc | right].
    repeat split; auto. left; now symmetry. }
  destruct o as [now lvl | now lvl |]; cbn [step op_times].
  - apply Hin.
  - destruct (irq_handler (_pin self)) as [[] |]; [apply Hin |].
    exists self, (mkEnv now lvl (trace e)).
    split; [reflexivity |]. split; [repeat split |]. left. repeat split.
  - exists (set_pin (Pin_irq (Z.lor IRQ_FALLING IRQ_RISING) None (_pin self)) self), e.
    split; [reflexivity |]. split; [repeat split |]. left. repeat split.
Qed.

Lemma step_wf (o : op) (self : SimpleButton) (e : env)
    (self' : SimpleButton) (e' : env) :
  wf self -> step o self e = Ok (self', e') -> wf self'.
Proof.
  intros [(d & Hd & Hpos) Hbit] Hs.
  destruct (step_summary o self e d Hd) as (s1 & e1 & Hs1 & Hk & Hc).
  rewrite Hs in Hs1. injection Hs1 as <- <-.
  destruct Hk as (Hk & _). split.
  - exists d. rewrite Hk. auto.
  - destruct Hc as [[[-> _] _] | (_ & _ & _ & Hb & _)]; assumption.
Qed.

Lemma run_wf (ops : list op) (self : SimpleButton) (e : env)
    (self' : SimpleButton) (e' : env) :
  wf self -> run ops self e = Ok (self', e') -> wf self'.
Proof.
  revert self e. induction ops as [| o ops IH]; intros self e Hwf; cbn [run].
  - unfold ret. now intros [= <- <-].
  - unfold bind. destruct (step o self e) as [[s1 e1] | x] eqn:Hs; [| discriminate].
    intros Hr. eapply IH; [eapply step_wf; eauto | exact Hr].
Qed.

Lemma reachable_wf (self : SimpleButton) : reachable self -> wf self.
Proof.
  intros (pin & pcb & rcb & dm & pull & al & e0 & s0 & e1 & ops & e & e' & Hi & Hr).
  eapply run_wf; [eapply __init___wf; eauto | exact Hr].
Qed.

(** Operations never fail on a well-formed button. *)
Lemma run_total (ops : list op) (self : SimpleButton) (e : env) :
  wf self -> exists self' e', run ops self e = Ok (self', e').
Proof.
  revert self e. induction ops as [| o ops IH]; intros self e Hwf; cbn [run].
  - now exists self, e.
  - destruct Hwf as [(d & Hd & Hpos) Hbit].
    destruct (step_summary o self e d Hd) as (s1 & e1 & Hs1 & _).
    unfold bind. rewrite Hs1. apply IH.
    eapply step_wf; [| exact Hs1]. split; eauto.
Qed.

End StepFacts.

(* ================================================================== *)
(** * Runs *)

Section Runs.
Context `{Platform}.

(** The same summary for an operation that is known to have returned. *)
Lemma step_ok_summary (o : op) (self : SimpleButton) (e : env)
    (self' : SimpleButton) (e' : env) :
  step o self e = Ok (self', e') ->
  kept self self'
  /\ ((same_reading self self' /\ fired (trace e') = fired (trace e))
      \/ (py_ne (_state self') (_state self) = true
          /\ (forall d, _debounce_ms self = AInt d ->
                d <= ticks_diff (_last_time self') (_last_time self))
          /\ In (_last_time self') (op_times [o])
          /\ fired (trace e')
             = fired (trace e)
               ++ fired (calls_of (callback_for self (logical_of (_state self'))) self'))).
Proof.
  intros Hs.
  destruct (_debounce_ms self) as [d | | s] eqn:Hd.
  - destruct (step_summary o self e d Hd) as (s1 & e1 & Hs1 & Hk & Hc).
    rewrite Hs in Hs1. injection Hs1 as <- <-. split; [exact Hk |].
    destruct Hc as [Hc | (H1 & H2 & H3 & _ & H5)]; [now left | right].
    repeat split; auto. now intros d' [= <-].
  - destruct o as [now lvl | now lvl |]; cbn [step] in Hs.
    + unfold bind, set_hw in Hs. apply _irq_handler_int in Hs as [d Hd'].
      congruence.
    + unfold bind, set_hw in Hs.
      destruct (irq_handler (_pin self)) as [[] |].
      * apply _irq_handler_int in Hs as [d Hd']. congruence.
      * injection Hs as <- <-. split; [repeat split |]. left. repeat split.
    + injection Hs as <- <-. split; [repeat split |]. left. repeat split.
  - destruct o as [now lvl | now lvl |]; cbn [step] in Hs.
    + unfold bind, set_hw in Hs. apply _irq_handler_int in Hs as [d Hd'].
      congruence.
    + unfold bind, set_hw in Hs.
      destruct (irq_handler (_pin self)) as [[] |].
      * apply _irq_handler_int in Hs as [d Hd']. congruence.
      * injection Hs as <- <-. split; [repeat split |]. left. repeat split.
    + injection Hs as <- <-. split; [repeat split |]. left. repeat split.
Qed.

(** Unfolding [transitions] by one operation that returned. *)
Lemma transitions_cons (o : op) (ops : list op) (self : SimpleButton) (e : env)
    (self' : SimpleButton) (e' : env) :
  step o self e = Ok (self', e') ->
  transitions (o :: ops) self e =
    (if py_ne (_state self') (_state self)
     then [(_last_time self', _state self')] else [])
    ++ transitions ops self' e'.
Proof. intros Hs. cbn [transitions]. now rewrite Hs. Qed.

Lemma same_reading_ne (self self' : SimpleButton) :
  same_reading self self' -> py_ne (_state self') (_state self) = false.
Proof. intros [-> _]. apply py_ne_refl. Qed.

(** Each accepted transition lies at least the debounce interval after the
    one before it. *)
Lemma transitions_spaced (ops : list op) (self : SimpleButton) (e : env) (d : Z) :
  _debounce_ms self = AInt d ->
  spaced d (_last_time self) (map fst (transitions ops self e)).
Proof.
  revert self e. induction ops as [| o ops IH]; intros self e Hd; [exact I |].
  destruct (step_summary o self e d Hd) as (s1 & e1 & Hs & Hk & Hc).
  rewrite (transitions_cons _ _ _ _ _ _ Hs).
  assert (Hd1 : _debounce_ms s1 = AInt d) by (destruct Hk as [-> _]; exact Hd).
  destruct Hc as [[Hsame _] | (Hne & Hsp & _)].
  - rewrite (same_reading_ne _ _ Hsame). cbn [app].
    destruct Hsame as [_ <-]. now apply IH.
  - rewrite Hne. cbn [app map fst spaced]. split; [exact Hsp | now apply IH].
Qed.

(** The timestamp of an accepted transition is the time of an operation. *)
Lemma transitions_times (ops : list op) (self : SimpleButton) (e : env) :
  incl (map fst (transitions ops self e)) (op_times ops).
Proof.
  revert self e. induction ops as [| o ops IH]; intros self e; [easy |].
  cbn [transitions].
  destruct (step o self e) as [[s1 e1] | x] eqn:Hs; [| easy].
  assert (Htail : incl (map fst (transitions ops s1 e1)) (op_times (o :: ops))).
  { intros t Ht. apply IH in Ht. destruct o; cbn [op_times]; auto using in_cons. }
  destruct (py_ne (_state s1) (_state self)) eqn:Hne; [| exact Htail].
  cbn [app map fst]. apply incl_cons; [| exact Htail].
  apply step_ok_summary in Hs as (_ & [[Hsame _] | (_ & _ & Hin & _)]).
  - rewrite (same_reading_ne _ _ Hsame) in Hne. discriminate.
  - destruct o; cbn [op_times In] in Hin |- *; tauto.
Qed.

Lemma ticks_diff_window (lo a b : Z) :
  0 < TICKS_PERIOD -> in_window lo a -> in_window lo b ->
  ticks_diff a b = a - b.
Proof.
  unfold in_window, ticks_diff. intros HP Ha Hb.
  pose proof (Z.mul_div_le TICKS_PERIOD 2 ltac:(lia)).
  rewrite Z.mod_small; lia.
Qed.

Lemma spaced_from (d lo t : Z) (ts : list Z) :
  0 < TICKS_PERIOD -> 0 <= d ->
  in_window lo t -> Forall (in_window lo) ts ->
  spaced d t ts ->
  Forall (fun u => d <= ticks_diff u t) ts.
Proof.
  intros HP Hd. revert t.
  induction ts as [| u us IH]; intros t Ht Hw Hs; [constructor |].
  inversion Hw as [| ? ? Hu Hus]; subst. destruct Hs as [Hut Hs].
  constructor; [exact Hut |].
  specialize (IH u Hu Hus Hs).
  rewrite Forall_forall in *. intros w Hin.
  specialize (IH w Hin). specialize (Hus w Hin).
  rewrite (ticks_diff_window lo) in * by assumption. lia.
Qed.

Lemma spaced_pairs (d lo prev : Z) (ts : list Z) :
  0 < TICKS_PERIOD -> 0 <= d ->
  Forall (in_window lo) ts ->
  spaced d prev ts ->
  ForallOrdPairs (fun a b => d <= ticks_diff b a) ts.
Proof.
  intros HP Hd. revert prev.
  induction ts as [| t ts IH]; intros prev Hw Hs; [constructor |].
  inversion Hw; subst. destruct Hs as [_ Hs].
  constructor; [eapply spaced_from; eauto | eapply IH; eauto].
Qed.

Lemma callbacks_of_kept (self self' : SimpleButton) (tr : Z * pyval) :
  kept self self' -> callbacks_of self' tr = callbacks_of self tr.
Proof.
  intros (_ & Hp & Hr & _). unfold callbacks_of, callback_for.
  now rewrite Hp, Hr.
Qed.

(** The callbacks of a run are those of its accepted transitions, in the
    order of the transitions. *)
Lemma run_fired (ops : list op) (self : SimpleButton) (e : env)
    (self' : SimpleButton) (e' : env) :
  run ops self e = Ok (self', e') ->
  fired (trace e')
    = fired (trace e) ++ flat_map (callbacks_of self) (transitions ops self e).
Proof.
  revert self e. induction ops as [| o ops IH]; intros self e; cbn [run].
  - unfold ret. intros [= <- <-]. cbn. now rewrite app_nil_r.
  - unfold bind. destruct (step o self e) as [[s1 e1] | x] eqn:Hs; [| discriminate].
    intros Hr. rewrite (transitions_cons _ _ _ _ _ _ Hs), flat_map_app.
    rewrite (IH _ _ Hr).
    apply step_ok_summary in Hs as (Hk & Hc).
    rewrite (flat_map_ext _ _ (fun tr => callbacks_of_kept self s1 tr Hk)).
    destruct Hc as [[Hsame ->] | (Hne & _ & _ & ->)].
    + now rewrite (same_reading_ne _ _ Hsame).
    + rewrite Hne. cbn [flat_map]. unfold callbacks_of at 2. cbn [snd].
      now rewrite fired_calls_of, app_nil_r, app_assoc.
Qed.

(** The timestamps of the accepted transitions are ordered as the times of
    the operations are. *)
Lemma transitions_sorted (R : Z -> Z -> Prop) (ops : list op)
    (self : SimpleButton) (e : env) :
  StronglySorted R (op_times ops) ->
  StronglySorted R (map fst (transitions ops self e)).
Proof.
  revert self e. induction ops as [| o ops IH]; intros self e Hs; [constructor |].
  cbn [transitions].
  destruct (step o self e) as [[s1 e1] | x] eqn:Hst; [| constructor].
  assert (Htl : StronglySorted R (op_times ops))
    by (destruct o; cbn [op_times] in Hs; auto; now inversion Hs).
  destruct (py_ne (_state s1) (_state self)) eqn:Hne; [| now apply IH].
  cbn [app map fst]. constructor; [now apply IH |].
  apply step_ok_summary in Hst as (_ & [[Hsame _] | (_ & _ & Hin & _)]).
  - rewrite (same_reading_ne _ _ Hsame) in Hne. discriminate.
  - assert (Hall : Forall (R (_last_time s1)) (op_times ops)).
    { destruct o; cbn [op_times In] in Hin, Hs; try tauto;
        destruct Hin as [<- | []]; now inversion Hs. }
    rewrite Forall_forall in *. intros t Ht. apply Hall.
    now apply (transitions_times ops s1 e1).
Qed.

Lemma ticks_diff_add (t k : Z) :
  0 <= k < TICKS_PERIOD - TICKS_PERIOD / 2 ->
  ticks_diff (t + k) t = k.
Proof.
  intros Hk. unfold ticks_diff.
  replace (t + k - t) with k by lia.
  rewrite Z.mod_small; Z.to_euclidean_division_equations; lia.
Qed.

(** The pull modes the constructor lets through. *)
Lemma bad_pull_false (pull : option Z) :
  bad_pull pull = false <-> recognized_pull pull.
Proof.
  unfold bad_pull, recognized_pull. destruct pull as [p |].
  - rewrite negb_false_iff, orb_true_iff, !Z.eqb_eq.
    split.
    + intros [-> | ->]; auto.
    + intros [E | [[= ->] | [= ->]]]; [discriminate | auto | auto].
  - split; auto.
Qed.

(** After [deinit] the platform delivers nothing. *)
Lemma run_edges_disarmed (ops : list op) (self : SimpleButton) (e : env) :
  forallb is_edge ops = true ->
  irq_handler (_pin self) = None ->
  exists e', run ops self e = Ok (self, e') /\ trace e' = trace e.
Proof.
  revert e. induction ops as [| o ops IH]; intros e Hall Hoff; cbn [run].
  - now exists e.
  - cbn [forallb] in Hall. apply andb_true_iff in Hall as [Ho Hall].
    destruct o as [| now lvl |]; try discriminate.
    unfold bind. cbn [step]. unfold bind, set_hw. rewrite Hoff. unfold ret.
    destruct (IH (mkEnv now lvl (trace e)) Hall Hoff) as (e' & Hr & Ht).
    exists e'. now split.
Qed.

End Runs.

(* ================================================================== *)
(** * The claims *)

Section Claims.
Context `{Platform}.

(** C1.  An invocation of the handler whose wraparound-safe elapsed time
    since [_last_time] is below the debounce interval is discarded: the
    button is returned as it was (state and timestamp included) and the only
    effect is the reading of the clock, so no callback is called.
    Consequently, along any run, each accepted transition lies at least the
    debounce interval after the previous one, and within a stretch of counter
    values shorter than half the period every two accepted transitions are at
    least the interval apart. *)
Theorem C1_bounce_discarded (self : SimpleButton) (d : Z) :
  _debounce_ms self = AInt d ->
  (forall pin e,
      ticks_diff (hw_ticks e) (_last_time self) < d ->
      _irq_handler self pin e = Ok (self, after e [E_ticks_ms]))
  /\ (forall ops e,
         spaced d (_last_time self) (map fst (transitions ops self e)))
  /\ (forall ops e lo,
         0 < TICKS_PERIOD -> 0 <= d ->
         Forall (in_window lo) (op_times ops) ->
         ForallOrdPairs (fun a b => d <= ticks_diff b a)
           (map fst (transitions ops self e))).
Proof.
  intros Hd. split; [| split].
  - intros pin e Hlt. rewrite (_irq_handler_cases self pin e d Hd).
    apply Z.ltb_lt in Hlt. now rewrite Hlt.
  - intros ops e. now apply transitions_spaced.
  - intros ops e lo HP Hpos Hw.
    apply (spaced_pairs d lo (_last_time self)); auto.
    + rewrite Forall_forall in *. intros t Ht.
      apply Hw. now apply (transitions_times ops self e).
    + now apply transitions_spaced.
Qed.

(** C3.  An invocation that passes the debounce check and samples a level
    whose logical state differs from the current one is an accepted
    transition: [_last_time] becomes [now], [_state] becomes the candidate,
    nothing else in the button changes, and then, after the two readings and
    the two writes, the callback registered for the new state is called once
    if there is one, and no other callback is: the callback runs on the
    button as the handler returns it, and finds the new timestamp and the
    new state already in place. *)
Theorem C3_transition_accepted (self : SimpleButton) (pin : Pin) (e : env) (d : Z) :
  wf self ->
  _debounce_ms self = AInt d ->
  d <= ticks_diff (hw_ticks e) (_last_time self) ->
  candidate (_active_low self) (hw_level e) <> logical_of (_state self) ->
  exists self',
    _irq_handler self pin e
      = Ok (self',
            after e ([E_ticks_ms; E_pin_value]
                     ++ calls_of (callback_for self
                                    (candidate (_active_low self) (hw_level e)))
                          self'))
    /\ _last_time self' = hw_ticks e
    /\ logical_of (_state self') = candidate (_active_low self) (hw_level e)
    /\ _pin self' = _pin self
    /\ kept self self'.
Proof.
  intros [_ Hbit] Hd Hge Hdiff.
  rewrite (_irq_handler_cases self pin e d Hd).
  apply Z.ltb_ge in Hge. rewrite Hge. cbn zeta.
  rewrite <- sampled_logical in Hdiff.
  apply (py_ne_logical _ _ (sampled_bit _ _) Hbit) in Hdiff. rewrite Hdiff.
  eexists. split; [rewrite sampled_logical; reflexivity |].
  cbn. rewrite sampled_logical. repeat split.
Qed.

(** C4.  An invocation that passes the debounce check reads the clock and
    only then samples the pin; when the sampled level maps to the current
    logical state the event is discarded: the button is returned as it was
    and no callback is called. *)
Theorem C4_glitch_discarded (self : SimpleButton) (pin : Pin) (e : env) (d : Z) :
  wf self ->
  _debounce_ms self = AInt d ->
  d <= ticks_diff (hw_ticks e) (_last_time self) ->
  candidate (_active_low self) (hw_level e) = logical_of (_state self) ->
  _irq_handler self pin e = Ok (self, after e [E_ticks_ms; E_pin_value]).
Proof.
  intros [_ Hbit] Hd Hge Hsame.
  rewrite (_irq_handler_cases self pin e d Hd).
  apply Z.ltb_ge in Hge. rewrite Hge. cbn zeta.
  destruct (py_ne _ _) eqn:Hne; [| reflexivity].
  apply (py_ne_logical _ _ (sampled_bit _ _) Hbit) in Hne.
  rewrite sampled_logical in Hne. contradiction.
Qed.

(** C7.  On every button reachable from the constructor by handler
    invocations, edges and [deinit] calls, [is_pressed] and [is_released]
    are complementary. *)
Theorem C7_queries_complementary (self : SimpleButton) :
  reachable self -> is_pressed self = negb (is_released self).
Proof.
  intros Hr. apply reachable_wf in Hr as [_ Hbit].
  unfold is_pressed, is_released, py_eq. simpl.
  destruct Hbit as [-> | ->]; reflexivity.
Qed.

(** C10.  The constructor sets [_last_time] to 0 whatever the clock reads,
    so every invocation at a time [now] with [ticks_diff now 0] below the
    debounce interval is discarded, whatever the level: the button is
    returned as it was and only the clock is read. *)
Theorem C10_initial_window (pin : Z) (press_cb release_cb : option callback)
    (debounce_ms : pyarg) (pull : option Z) (active_low : bool)
    (e0 : env) (self : SimpleButton) (e1 : env) :
  __init__ pin press_cb release_cb debounce_ms pull active_low e0 = Ok (self, e1) ->
  _last_time self = 0
  /\ exists d,
       debounce_ms = AInt d
       /\ forall now lvl e,
            ticks_diff now 0 < d ->
            step (Edge now lvl) self e
              = Ok (self, mkEnv now lvl (trace e ++ [E_ticks_ms]))
            /\ step (Handler now lvl) self e
               = Ok (self, mkEnv now lvl (trace e ++ [E_ticks_ms])).
Proof.
  intros Hi. apply __init___ok in Hi as (_ & (d & -> & Hd) & -> & _).
  split; [reflexivity |]. exists d. split; [reflexivity |].
  intros now lvl e Hlt. cbn [step _pin irq_handler]. unfold bind, set_hw.
  erewrite _irq_handler_cases by reflexivity.
  cbn [hw_ticks _last_time]. apply Z.ltb_lt in Hlt. rewrite Hlt. now split.
Qed.

(** Running the handler on an armed button delivers the edge to it. *)
Ltac deliver :=
  cbn [step _pin irq_handler set_state set_last_time];
  unfold bind, set_hw;
  erewrite _irq_handler_cases by reflexivity;
  cbn [hw_ticks hw_level trace _last_time _active_low _state _debounce_ms
       set_state set_last_time].

(** C2 (amended).  With a 50 ms interval, the line high at construction and
    an active-low button, the state starts Released; when the three edges
    come at [t0], [t0 + 10] and [t0 + 60] for a [t0] at least 50 after the
    counter value 0 (by the wraparound-safe difference), the edge to low at
    [t0] is accepted (press callback, Pressed, timestamp [t0]), the edge to
    high at [t0 + 10] is discarded, and the edge to high at [t0 + 60] is
    accepted (release callback, Released, timestamp [t0 + 60]). *)
Theorem C2_scenario_from_t0 (t0 : Z) :
  120 < TICKS_PERIOD ->
  50 <= ticks_diff t0 0 ->
  scenario t0.
Proof.
  intros HP H0 pin pull pcb rcb e0 Hpull Hhigh.
  rewrite __init___cases, Hpull, Hhigh. cbn [Z.ltb Z.compare sampled level_int].
  do 7 eexists. split; [reflexivity |]. split; [reflexivity |].
  split.
  { deliver. apply Z.ltb_ge in H0. rewrite H0. cbn. reflexivity. }
  split; [reflexivity |]. split; [reflexivity |].
  split; [cbn; now rewrite !fired_app |].
  split.
  { deliver. rewrite (ticks_diff_add t0 10) by (Z.to_euclidean_division_equations; lia). cbn. reflexivity. }
  split; [cbn; now rewrite !fired_app, app_nil_r |].
  split.
  { deliver. rewrite (ticks_diff_add t0 60) by (Z.to_euclidean_division_equations; lia). cbn. reflexivity. }
  split; [reflexivity |]. split; [reflexivity |].
  cbn. now rewrite !fired_app.
Qed.

(** C5.  The polarity rule: the state the constructor derives, and the state
    after any handler invocation that passes the debounce check, is the raw
    reading for an active-low button and its complement for an active-high
    one.  In particular, starting with the line low, a rising edge after the
    debounce window leaves an active-low button Released and calls the
    release callback, and leaves an active-high button Pressed and calls the
    press callback. *)
Theorem C5_polarity :
  (forall pin press_cb release_cb debounce_ms pull active_low e0 self e1,
      __init__ pin press_cb release_cb debounce_ms pull active_low e0
        = Ok (self, e1) ->
      int_of (_state self) = polarity active_low (level_int (hw_level e0))
      /\ logical_of (_state self) = candidate active_low (hw_level e0))
  /\ (forall self pin e d,
         _debounce_ms self = AInt d ->
         d <= ticks_diff (hw_ticks e) (_last_time self) ->
         exists self' e',
           _irq_handler self pin e = Ok (self', e')
           /\ int_of (_state self')
              = polarity (_active_low self) (level_int (hw_level e))
           /\ logical_of (_state self')
              = candidate (_active_low self) (hw_level e))
  /\ (forall pin press_cb release_cb d pull active_low e0 self e1 now,
         __init__ pin (Some press_cb) (Some release_cb) (AInt d) pull active_low e0
           = Ok (self, e1) ->
         hw_level e0 = Low ->
         d <= ticks_diff now 0 ->
         exists self' e',
           step (Edge now High) self e1 = Ok (self', e')
           /\ logical_of (_state self') = (if active_low then Released else Pressed)
           /\ is_released self' = active_low
           /\ is_pressed self' = negb active_low
           /\ fired (trace e')
              = fired (trace e1) ++ [if active_low then release_cb else press_cb]).
Proof.
  split; [| split].
  - intros * Hi. apply __init___ok in Hi as (_ & _ & -> & _). cbn [_state].
    split; [apply sampled_int | apply sampled_logical].
  - intros self pin e d Hd Hge.
    rewrite (_irq_handler_cases self pin e d Hd).
    apply Z.ltb_ge in Hge. rewrite Hge. cbn zeta.
    destruct (py_ne _ _) eqn:Hne.
    + do 2 eexists. split; [reflexivity |]. cbn [_state set_state].
      split; [apply sampled_int | apply sampled_logical].
    + do 2 eexists. split; [reflexivity |].
      unfold py_ne, py_eq in Hne. apply negb_false_iff, Z.eqb_eq in Hne.
      split.
      * now rewrite <- Hne, sampled_int.
      * rewrite <- sampled_logical. unfold logical_of, py_eq. now rewrite Hne.
  - intros * Hi Hlow Hge.
    apply __init___ok in Hi as (_ & _ & -> & ->). rewrite Hlow.
    deliver. apply Z.ltb_ge in Hge. rewrite Hge.
    destruct active_low; cbn; do 2 eexists;
      (split; [reflexivity |]); cbn; rewrite !fired_app; repeat split.
Qed.

(** C6.  The constructor raises, and then a [ValueError], exactly when
    [debounce_ms] is not a non-negative int or [pull] is neither [None] nor
    one of the two pull constants; it raises for [debounce_ms = -1] and
    returns for [debounce_ms = 0]; and on a button it has returned every
    sequence of operations returns. *)
Theorem C6_validation :
  (forall pin press_cb release_cb debounce_ms pull active_low e,
      (exists msg,
          __init__ pin press_cb release_cb debounce_ms pull active_low e
            = Raise (ValueError msg))
      <-> (~ nonneg_int debounce_ms \/ ~ recognized_pull pull))
  /\ (forall pin press_cb release_cb debounce_ms pull active_low e x,
         __init__ pin press_cb release_cb debounce_ms pull active_low e = Raise x ->
         exists msg, x = ValueError msg)
  /\ (forall pin press_cb release_cb pull active_low e,
         exists msg,
           __init__ pin press_cb release_cb (AInt (-1)) pull active_low e
             = Raise (ValueError msg))
  /\ (forall pin press_cb release_cb pull active_low e,
         recognized_pull pull ->
         exists self e',
           __init__ pin press_cb release_cb (AInt 0) pull active_low e
             = Ok (self, e'))
  /\ (forall pin press_cb release_cb debounce_ms pull active_low e0 self e1,
         __init__ pin press_cb release_cb debounce_ms pull active_low e0
           = Ok (self, e1) ->
         forall ops e, exists self' e', run ops self e = Ok (self', e')).
Proof.
  split; [| split; [| split; [| split]]].
  - intros *. rewrite __init___cases, <- bad_pull_false.
    destruct (bad_pull pull).
    + split; [intros _; right; discriminate | eauto].
    + destruct debounce_ms as [z | | s].
      * destruct (Z.ltb_spec z 0).
        -- split; [intros _; left; intros (z' & [= <-] & ?); lia | eauto].
        -- split; [intros [? [=]] |].
           intros [N | N]; [elim N; exists z; auto | now elim N].
      * split; [intros _; left; intros (z' & [=] & _) | eauto].
      * split; [intros _; left; intros (z' & [=] & _) | eauto].
  - intros *. rewrite __init___cases.
    destruct (bad_pull pull); [intros [= <-]; eauto |].
    destruct debounce_ms as [z | | s]; try (intros [= <-]; eauto).
    destruct (z <? 0); [intros [= <-]; eauto | discriminate].
  - intros *. rewrite __init___cases.
    destruct (bad_pull pull); cbn; eauto.
  - intros * Hp. apply bad_pull_false in Hp.
    rewrite __init___cases, Hp. cbn. eauto.
  - intros * Hi ops e. apply run_total. eapply __init___wf; eauto.
Qed.

(** C8.  [deinit] is idempotent: it returns, calling it once more or any
    number of times gives the same button, the state and the timestamp are
    those from before the first call, the two queries answer as before, and
    afterwards no edge on the line changes the button or calls anything. *)
Theorem C8_deinit_idempotent (self : SimpleButton) (e : env) :
  exists self1,
    deinit self e = Ok (self1, e)
    /\ (forall e2, deinit self1 e2 = Ok (self1, e2))
    /\ (forall n e2, run (repeat Deinit (S n)) self e2 = Ok (self1, e2))
    /\ same_reading self self1
    /\ is_pressed self1 = is_pressed self
    /\ is_released self1 = is_released self
    /\ (forall ops e2,
           forallb is_edge ops = true ->
           exists e3, run ops self1 e2 = Ok (self1, e3) /\ trace e3 = trace e2).
Proof.
  eexists. split; [reflexivity |].
  split; [reflexivity |].
  split.
  { intros n e2. cbn [repeat run]. unfold bind. cbn [step deinit]. unfold ret.
    induction n as [| n IH]; [reflexivity |].
    cbn [repeat run]. unfold bind. cbn [step deinit]. unfold ret. exact IH. }
  split; [split; reflexivity |].
  split; [reflexivity |]. split; [reflexivity |].
  intros ops e2 Hall. now apply run_edges_disarmed.
Qed.

(** C9.  When the times of the operations of a run are non-decreasing, so
    are the timestamps of its accepted transitions, and strictly increasing
    when the times are; the callbacks called during the run are those of the
    accepted transitions, in the order of the transitions. *)
Theorem C9_ordering (ops : list op) (self : SimpleButton) (e : env)
    (self' : SimpleButton) (e' : env) :
  run ops self e = Ok (self', e') ->
  StronglySorted Z.le (op_times ops) ->
  StronglySorted Z.le (map fst (transitions ops self e))
  /\ (StronglySorted Z.lt (op_times ops) ->
      StronglySorted Z.lt (map fst (transitions ops self e)))
  /\ fired (trace e')
     = fired (trace e) ++ flat_map (callbacks_of self) (transitions ops self e).
Proof.
  intros Hr Hle. split; [| split].
  - now apply transitions_sorted.
  - now apply transitions_sorted.
  - exact (run_fired ops self e self' e' Hr).
Qed.

End Claims.

(* ================================================================== *)
(** * Concrete runs on the Pico *)

Lemma example_button_wf : wf example_button.
Proof. split; [exists 50; split; [reflexivity | lia] | right; reflexivity]. Qed.

Lemma example_button_init (active_low : bool) (lvl : level) :
  @__init__ rp2 5 (Some 1%nat) (Some 2%nat) (AInt 50) (Some 1) active_low
    (mkEnv 0 lvl [])
  = Ok (example_button_at active_low lvl, mkEnv 0 lvl [E_pin_value]).
Proof. destruct active_low, lvl; reflexivity. Defined.

Ltac sorted_list :=
  repeat first [ apply SSorted_nil | apply SSorted_cons
               | apply Forall_nil | apply Forall_cons | lia ].

(** C2, as stated: with the three edges at 0, 10 and 60 the first one is not
    accepted, since no time has elapsed since the initial timestamp 0. *)
Lemma C2_scenario_at_0_fails : ~ @scenario rp2 0.
Proof.
  intros Hs.
  destruct (Hs 5 (Some 1) 1%nat 2%nat (mkEnv 0 High []) eq_refl eq_refl)
    as (s0 & e1 & s1 & e2 & e3 & s3 & e4 & Hi & _ & Hstep & Hpressed & _).
  vm_compute in Hi. injection Hi as <- <-.
  vm_compute in Hstep. injection Hstep as <- <-.
  vm_compute in Hpressed. discriminate.
Qed.

Lemma C1_bounce_discarded_witness :
  @_irq_handler rp2 example_button (_pin example_button) (mkEnv 10 Low [])
    = Ok (example_button, mkEnv 10 Low [E_ticks_ms])
  /\ @spaced rp2 50 0
       (map fst (@transitions rp2 example_ops example_button example_env))
  /\ ForallOrdPairs (fun a b => 50 <= @ticks_diff rp2 b a)
       (map fst (@transitions rp2 example_ops example_button example_env)).
Proof.
  destruct (@C1_bounce_discarded rp2 example_button 50 eq_refl) as (H1 & H2 & H3).
  split; [| split].
  - apply (H1 (_pin example_button) (mkEnv 10 Low [])). reflexivity.
  - apply (H2 example_ops example_env).
  - apply (H3 example_ops example_env 0); [reflexivity | lia |].
    repeat constructor; cbn; lia.
Defined.

Lemma C2_scenario_from_t0_witness : @scenario rp2 100.
Proof.
  apply (@C2_scenario_from_t0 rp2 100); [reflexivity |].
  vm_compute. discriminate.
Defined.

Lemma C3_transition_accepted_witness :
  exists self',
    @_irq_handler rp2 example_button (_pin example_button) (mkEnv 100 Low [])
      = Ok (self',
            mkEnv 100 Low
              [E_ticks_ms; E_pin_value;
               E_call 1%nat (_state self') (_last_time self')])
    /\ _last_time self' = 100
    /\ logical_of (_state self') = Pressed
    /\ _pin self' = _pin example_button
    /\ kept example_button self'.
Proof.
  apply (@C3_transition_accepted rp2 example_button (_pin example_button)
           (mkEnv 100 Low []) 50 example_button_wf eq_refl).
  - vm_compute. discriminate.
  - vm_compute. discriminate.
Defined.

Lemma C4_glitch_discarded_witness :
  @_irq_handler rp2 example_button (_pin example_button) (mkEnv 100 High [])
    = Ok (example_button, mkEnv 100 High [E_ticks_ms; E_pin_value]).
Proof.
  apply (@C4_glitch_discarded rp2 example_button (_pin example_button)
           (mkEnv 100 High []) 50 example_button_wf eq_refl).
  - vm_compute. discriminate.
  - reflexivity.
Defined.

Lemma C5_polarity_witness :
  (int_of (_state (example_button_at false High)) = 0
   /\ logical_of (_state (example_button_at false High)) = Pressed)
  /\ (exists self' e',
         @_irq_handler rp2 example_button (_pin example_button) (mkEnv 100 Low [])
           = Ok (self', e')
         /\ int_of (_state self') = 0
         /\ logical_of (_state self') = Pressed)
  /\ (exists self' e',
         @step rp2 (Edge 100 High) (example_button_at true Low)
           (mkEnv 0 Low [E_pin_value]) = Ok (self', e')
         /\ logical_of (_state self') = Released
         /\ @is_released self' = true
         /\ @is_pressed self' = false
         /\ fired (trace e') = [2%nat])
  /\ (exists self' e',
         @step rp2 (Edge 100 High) (example_button_at false Low)
           (mkEnv 0 Low [E_pin_value]) = Ok (self', e')
         /\ logical_of (_state self') = Pressed
         /\ @is_released self' = false
         /\ @is_pressed self' = true
         /\ fired (trace e') = [1%nat]).
Proof.
  destruct (@C5_polarity rp2) as (H1 & H2 & H3).
  split; [| split; [| split]].
  - exact (H1 _ _ _ _ _ _ _ _ _ (example_button_init false High)).
  - apply (H2 example_button (_pin example_button) (mkEnv 100 Low []) 50 eq_refl).
    vm_compute. discriminate.
  - apply (H3 _ _ _ _ _ _ _ _ _ 100 (example_button_init true Low) eq_refl).
    vm_compute. discriminate.
  - apply (H3 _ _ _ _ _ _ _ _ _ 100 (example_button_init false Low) eq_refl).
    vm_compute. discriminate.
Defined.

Lemma C6_validation_witness :
  (exists msg,
      ValueError "debounce_ms must be a non-negative int" = ValueError msg)
  /\ (exists self e',
         @__init__ rp2 5 None None (AInt 0) (Some 1) true (mkEnv 0 High [])
           = Ok (self, e'))
  /\ (exists self' e',
         @run rp2 [Handler 100 Low; Deinit; Edge 200 High; Handler 300 High]
           example_button example_env = Ok (self', e')).
Proof.
  destruct (@C6_validation rp2) as (_ & H2 & _ & H4 & H5).
  split; [| split].
  - apply (H2 5 None None (AStr "50") None true (mkEnv 0 High [])). reflexivity.
  - apply H4. right; left; reflexivity.
  - apply (H5 _ _ _ _ _ _ _ _ _ (example_button_init true High)).
Defined.

Lemma C7_queries_complementary_witness :
  is_pressed example_button = negb (is_released example_button).
Proof.
  apply (@C7_queries_complementary rp2).
  exists 5, (Some 1%nat), (Some 2%nat), (AInt 50), (Some 1), true,
    (mkEnv 0 High []), example_button, example_env, [], example_env, example_env.
  split; reflexivity.
Defined.

Lemma C8_deinit_idempotent_witness :
  exists self1,
    @deinit rp2 example_button example_env = Ok (self1, example_env)
    /\ _state self1 = _state example_button
    /\ (exists e3,
           @run rp2 [Edge 100 Low; Edge 200 High] self1 example_env = Ok (self1, e3)
           /\ trace e3 = trace example_env).
Proof.
  destruct (@C8_deinit_idempotent rp2 example_button example_env)
    as (self1 & H1 & _ & _ & [H4 _] & _ & _ & H7).
  exists self1. split; [exact H1 |]. split; [exact H4 |].
  apply H7. reflexivity.
Defined.

Lemma C9_ordering_witness :
  StronglySorted Z.le
    (map fst (@transitions rp2 example_ops example_button example_env))
  /\ StronglySorted Z.lt
       (map fst (@transitions rp2 example_ops example_button example_env))
  /\ [1%nat; 2%nat]
     = fired (trace example_env)
       ++ flat_map (callbacks_of example_button)
            (@transitions rp2 example_ops example_button example_env).
Proof.
  destruct (@C9_ordering rp2 example_ops example_button example_env _ _ eq_refl)
    as (H1 & H2 & H3).
  - unfold example_ops; cbn [op_times]. sorted_list.
  - split; [exact H1 |]. split; [| exact H3].
    apply H2. unfold example_ops; cbn [op_times]. sorted_list.
Defined.

Lemma C10_initial_window_witness :
  _last_time example_button = 0
  /\ @step rp2 (Edge 10 Low) example_button example_env
     = Ok (example_button, mkEnv 10 Low (trace example_env ++ [E_ticks_ms])).
Proof.
  destruct (@C10_initial_window rp2 _ _ _ _ _ _ _ _ _ (example_button_init true High))
    as (H0 & d & Hd & Hall).
  injection Hd as <-.
  split; [exact H0 |].
  apply (Hall 10 Low example_env). reflexivity.
Defined.

(* ================================================================== *)
(** * Further properties of the filter *)

Section Further.
Context `{Platform}.

Lemma _irq_handler_pin (self : SimpleButton) (pin : Pin) (e : env)
    (self' : SimpleButton) (e' : env) :
  _irq_handler self pin e = Ok (self', e') -> _pin self' = _pin self.
Proof.
  intros Hr. destruct (_irq_handler_int _ _ _ _ Hr) as [d Hd].
  rewrite (_irq_handler_cases self pin e d Hd) in Hr.
  destruct (_ <? _); [now injection Hr as <- _ |].
  cbn zeta in Hr. destruct (py_ne _ _); now injection Hr as <- _.
Qed.

Lemma last_cons_default {A : Type} (x d : A) (l : list A) :
  last (x :: l) d = last l x.
Proof.
  revert x d. induction l as [| y l IH]; intros x d; [reflexivity |].
  change (last (x :: y :: l) d) with (last (y :: l) d).
  now rewrite (IH y d), (IH y x).
Qed.

(** The wraparound-safe difference sees only the elapsed time modulo the
    period. *)
Lemma ticks_diff_wrapped (t k : Z) :
  0 <= k < TICKS_PERIOD - TICKS_PERIOD / 2 ->
  ticks_diff ((t + k) mod TICKS_PERIOD) t = k.
Proof.
  intros Hk.
  assert (HP : 0 < TICKS_PERIOD) by (Z.to_euclidean_division_equations; lia).
  rewrite <- (ticks_diff_add t k Hk) at 2. unfold ticks_diff. f_equal.
  replace ((t + k) mod TICKS_PERIOD - t + TICKS_PERIOD / 2)
    with ((t + k) mod TICKS_PERIOD + (TICKS_PERIOD / 2 - t)) by lia.
  rewrite Z.add_mod_idemp_l by lia. f_equal. lia.
Qed.

Lemma ticks_diff_stale (now last : Z) :
  0 < TICKS_PERIOD ->
  TICKS_PERIOD - TICKS_PERIOD / 2 <= (now - last) mod TICKS_PERIOD ->
  ticks_diff now last < 0.
Proof.
  intros HP Hr. unfold ticks_diff.
  rewrite <- Z.add_mod_idemp_l by lia.
  pose proof (Z.mod_pos_bound (now - last) TICKS_PERIOD HP) as Hb.
  set (r := (now - last) mod TICKS_PERIOD) in *.
  assert (Hh : 0 <= TICKS_PERIOD / 2 < TICKS_PERIOD)
    by (Z.to_euclidean_division_equations; lia).
  rewrite <- (Z.mod_unique (r + TICKS_PERIOD / 2) TICKS_PERIOD 1
                (r + TICKS_PERIOD / 2 - TICKS_PERIOD)); lia.
Qed.

(** While the line sits at the level the state stands for, no operation at
    that level does anything. *)
Lemma run_settled (ops : list op) (self : SimpleButton) (e : env)
    (lvl : level) (d : Z) :
  _debounce_ms self = AInt d ->
  py_ne (sampled (_active_low self) lvl) (_state self) = false ->
  Forall (at_level lvl) ops ->
  exists e', run ops self e = Ok (self, e') /\ fired (trace e') = fired (trace e).
Proof.
  intros Hd Hsame Hall. revert e.
  induction Hall as [| o ops [now Ho] _ IH]; intros e; cbn [run].
  - now exists e.
  - assert (Hh : exists e1,
      (set_hw now lvl ;; _irq_handler self (_pin self)) e = Ok (self, e1)
      /\ fired (trace e1) = fired (trace e)).
    { unfold bind, set_hw. rewrite (_irq_handler_cases _ _ _ d Hd).
      cbn [hw_ticks hw_level trace].
      destruct (_ <? _); [| cbn zeta; rewrite Hsame];
        eexists; (split; [reflexivity |]); cbn; rewrite fired_app;
        apply app_nil_r. }
    assert (Hs : exists e1,
      step o self e = Ok (self, e1) /\ fired (trace e1) = fired (trace e)).
    { destruct Ho as [-> | ->]; cbn [step]; [exact Hh |].
      destruct (irq_handler (_pin self)) as [[] |]; [exact Hh |].
      eexists. split; reflexivity. }
    destruct Hs as (e1 & Hs & Hf). unfold bind. rewrite Hs.
    destruct (IH e1) as (e' & Hr & Hf'). exists e'. split; [exact Hr | congruence].
Qed.

(** While the line stays at the level that the debounced state stands for,
    handler invocations and edges at any times leave a well-formed button
    exactly as it is and call nothing. *)
Theorem settled_line_is_silent (ops : list op) (self : SimpleButton) (e : env)
    (lvl : level) :
  wf self ->
  logical_of (_state self) = candidate (_active_low self) lvl ->
  Forall (at_level lvl) ops ->
  exists e', run ops self e = Ok (self, e') /\ fired (trace e') = fired (trace e).
Proof.
  intros [(d & Hd & _) Hbit] Hl Hall.
  apply (run_settled ops self e lvl d Hd); [| exact Hall].
  destruct (py_ne _ _) eqn:Hne; [| reflexivity].
  apply (py_ne_logical _ _ (sampled_bit _ _) Hbit) in Hne.
  rewrite sampled_logical in Hne. now elim Hne.
Qed.

(** A freshly constructed button reports nothing for its resting state:
    whatever the polarity, the interval and the times, interrupts that find
    the line at the level it had at construction change nothing and call
    nothing. *)
Theorem resting_level_never_reported (pin : Z) (press_cb release_cb : option callback)
    (debounce_ms : pyarg) (pull : option Z) (active_low : bool)
    (e0 : env) (self : SimpleButton) (e1 : env) (ops : list op) (e : env) :
  __init__ pin press_cb release_cb debounce_ms pull active_low e0 = Ok (self, e1) ->
  Forall (at_level (hw_level e0)) ops ->
  exists e', run ops self e = Ok (self, e') /\ fired (trace e') = fired (trace e).
Proof.
  intros Hi Hall. apply __init___ok in Hi as (_ & (d & -> & _) & -> & _).
  apply (run_settled _ _ _ (hw_level e0) d); [reflexivity | apply py_ne_refl | exact Hall].
Qed.

(** Each accepted transition enters the logical state opposite to the one
    before it. *)
Lemma transitions_flip (ops : list op) (self : SimpleButton) (e : env) :
  wf self ->
  alternating (logical_of (_state self))
    (map (fun tr => logical_of (snd tr)) (transitions ops self e)).
Proof.
  revert self e. induction ops as [| o ops IH]; intros self e Hwf; [exact I |].
  destruct Hwf as [(d & Hd & Hpos) Hbit].
  destruct (step_summary o self e d Hd) as (s1 & e1 & Hs & Hk & Hc).
  assert (Hwf1 : wf s1) by (eapply step_wf; [| exact Hs]; split; eauto).
  rewrite (transitions_cons _ _ _ _ _ _ Hs).
  destruct Hc as [[Hsame _] | (Hne & _ & _ & Hbit1 & _)].
  - rewrite (same_reading_ne _ _ Hsame). cbn [app].
    destruct Hsame as [<- _]. now apply IH.
  - rewrite Hne. cbn [app map snd alternating]. split; [| now apply IH].
    now apply (py_ne_logical _ _ Hbit1 Hbit).
Qed.

Lemma turns_of_alternating (self : SimpleButton) (p r : callback)
    (prev : logical) (trs : list (Z * pyval)) :
  _press_callback self = Some p ->
  _release_callback self = Some r ->
  alternating prev (map (fun tr => logical_of (snd tr)) trs) ->
  flat_map (callbacks_of self) trs = taking_turns p r prev (List.length trs).
Proof.
  intros Hp Hr. revert prev.
  induction trs as [| tr trs IH]; intros prev Halt; [reflexivity |].
  cbn [map alternating] in Halt. destruct Halt as [Hne Halt].
  cbn [flat_map List.length taking_turns]. rewrite (IH _ Halt).
  unfold callbacks_of at 1. unfold callback_for.
  destruct prev, (logical_of (snd tr)); try (now elim Hne);
    rewrite ?Hp, ?Hr; reflexivity.
Qed.

(** With both callbacks registered, the calls made during any run on a
    well-formed button take turns: the first is the callback for the state
    opposite to the starting one, and press and release calls alternate from
    there, one for each accepted transition; a press is never reported twice
    without a release in between. *)
Theorem callbacks_take_turns (ops : list op) (self : SimpleButton) (e : env)
    (self' : SimpleButton) (e' : env) (p r : callback) :
  wf self ->
  _press_callback self = Some p ->
  _release_callback self = Some r ->
  run ops self e = Ok (self', e') ->
  fired (trace e')
    = fired (trace e)
      ++ taking_turns p r (logical_of (_state self))
           (List.length (transitions ops self e)).
Proof.
  intros Hwf Hp Hr Hrun. rewrite (run_fired _ _ _ _ _ Hrun). f_equal.
  apply turns_of_alternating; auto. now apply transitions_flip.
Qed.

(** After a run the button holds the state and the timestamp of the last
    accepted transition, or the ones it started with when there was none. *)
Theorem run_holds_last_transition (ops : list op) (self : SimpleButton) (e : env)
    (self' : SimpleButton) (e' : env) :
  run ops self e = Ok (self', e') ->
  _state self' = last (map snd (transitions ops self e)) (_state self)
  /\ _last_time self' = last (map fst (transitions ops self e)) (_last_time self).
Proof.
  revert self e. induction ops as [| o ops IH]; intros self e; cbn [run].
  - unfold ret. now intros [= <- <-].
  - unfold bind. destruct (step o self e) as [[s1 e1] | x] eqn:Hs; [| discriminate].
    intros Hr. rewrite (transitions_cons _ _ _ _ _ _ Hs).
    destruct (IH _ _ Hr) as [IHs IHt].
    destruct (py_ne (_state s1) (_state self)) eqn:Hne.
    + cbn [app map fst snd]. now rewrite !last_cons_default.
    + apply step_ok_summary in Hs as (_ & [[[Es Et] _] | (Hne' & _)]);
        [| congruence].
      cbn [app]. now rewrite <- Es, <- Et.
Qed.

(** A burst of bounces: operations whose times all lie less than the
    debounce interval after [_last_time] leave the state and the timestamp
    alone, call nothing, and none of them is an accepted transition,
    whatever levels they find. *)
Theorem bounce_burst_is_discarded (ops : list op) (self : SimpleButton) (e : env)
    (d : Z) :
  _debounce_ms self = AInt d ->
  d <= TICKS_PERIOD - TICKS_PERIOD / 2 ->
  Forall (fun t => 0 <= t - _last_time self < d) (op_times ops) ->
  exists self' e',
    run ops self e = Ok (self', e')
    /\ same_reading self self'
    /\ fired (trace e') = fired (trace e)
    /\ transitions ops self e = [].
Proof.
  intros Hd HP. revert self e Hd.
  induction ops as [| o ops IH]; intros self e Hd Hall.
  - exists self, e. repeat split.
  - destruct (step_summary o self e d Hd) as (s1 & e1 & Hs & Hk & Hc).
    assert (Hsame : same_reading self s1 /\ fired (trace e1) = fired (trace e)).
    { destruct Hc as [Hc | (_ & Hge & Hin & _)]; [exact Hc | exfalso].
      destruct o as [now lvl | now lvl |]; cbn [op_times In] in Hin, Hall;
        try tauto; destruct Hin as [Hin | []]; rewrite <- Hin in Hge;
        apply Forall_inv in Hall; cbv beta in Hall;
        assert (Hrange : 0 <= now - _last_time self
                         < TICKS_PERIOD - TICKS_PERIOD / 2) by lia;
        pose proof (ticks_diff_add (_last_time self) (now - _last_time self)
                      Hrange) as E;
        replace (_last_time self + (now - _last_time self)) with now in E by lia;
        lia. }
    destruct Hsame as [Hsame Hf].
    assert (Htl : Forall (fun t => 0 <= t - _last_time s1 < d) (op_times ops)).
    { destruct Hsame as [_ ->].
      destruct o; cbn [op_times] in Hall; auto; now inversion Hall. }
    assert (Hd1 : _debounce_ms s1 = AInt d) by (destruct Hk as [-> _]; exact Hd).
    destruct (IH s1 e1 Hd1 Htl) as (s2 & e2 & Hr & Hsame2 & Hf2 & Ht).
    exists s2, e2. cbn [run]. unfold bind. rewrite Hs.
    split; [exact Hr |]. split; [| split].
    + destruct Hsame as [E1 E2], Hsame2 as [E3 E4]. split; congruence.
    + congruence.
    + rewrite (transitions_cons _ _ _ _ _ _ Hs), (same_reading_ne _ _ Hsame).
      exact Ht.
Qed.

(** An invocation that passes the debounce check leaves the button in the
    logical state the sampled level stands for. *)
Lemma _irq_handler_samples (self : SimpleButton) (pin : Pin) (e : env) (d : Z) :
  _debounce_ms self = AInt d ->
  d <= ticks_diff (hw_ticks e) (_last_time self) ->
  exists self' e',
    _irq_handler self pin e = Ok (self', e')
    /\ logical_of (_state self') = candidate (_active_low self) (hw_level e)
    /\ kept self self'.
Proof.
  intros Hd Hge. rewrite (_irq_handler_cases self pin e d Hd).
  apply Z.ltb_ge in Hge. rewrite Hge. cbn zeta.
  destruct (py_ne _ _) eqn:Hne; do 2 eexists; (split; [reflexivity |]).
  - split; [apply sampled_logical | repeat split].
  - unfold py_ne, py_eq in Hne. apply negb_false_iff, Z.eqb_eq in Hne.
    split; [| repeat split].
    rewrite <- sampled_logical. unfold logical_of, py_eq. now rewrite Hne.
Qed.

(** The filter works across the wrap of the counter: when [k] milliseconds
    (less than half a period) have passed since [_last_time], so that the
    counter reads [(_last_time + k) mod TICKS_PERIOD], the invocation is
    discarded if [k] is below the interval and samples the pin otherwise. *)
Theorem debounce_spans_counter_wrap (self : SimpleButton) (pin : Pin) (e : env)
    (d k : Z) :
  _debounce_ms self = AInt d ->
  0 <= k < TICKS_PERIOD - TICKS_PERIOD / 2 ->
  hw_ticks e = (_last_time self + k) mod TICKS_PERIOD ->
  (k < d -> _irq_handler self pin e = Ok (self, after e [E_ticks_ms]))
  /\ (d <= k ->
      exists self' e',
        _irq_handler self pin e = Ok (self', e')
        /\ logical_of (_state self') = candidate (_active_low self) (hw_level e)).
Proof.
  intros Hd Hk Hnow.
  pose proof (ticks_diff_wrapped (_last_time self) k Hk) as Hdiff.
  rewrite <- Hnow in Hdiff. split; intros Hcmp.
  - rewrite (_irq_handler_cases self pin e d Hd), Hdiff.
    apply Z.ltb_lt in Hcmp. now rewrite Hcmp.
  - destruct (_irq_handler_samples self pin e d Hd) as (s' & e' & Hr & Hl & _);
      [now rewrite Hdiff | eauto].
Qed.

(** The other side of the wraparound arithmetic: once half a period or more
    has passed since [_last_time] (modulo the period), the difference is
    negative and every invocation is discarded, whatever the level and even
    with a zero interval. *)
Theorem stale_timestamp_discards (self : SimpleButton) (pin : Pin) (e : env)
    (d : Z) :
  _debounce_ms self = AInt d ->
  0 <= d ->
  0 < TICKS_PERIOD ->
  TICKS_PERIOD - TICKS_PERIOD / 2
    <= (hw_ticks e - _last_time self) mod TICKS_PERIOD ->
  _irq_handler self pin e = Ok (self, after e [E_ticks_ms]).
Proof.
  intros Hd Hpos HP Hstale.
  pose proof (ticks_diff_stale _ _ HP Hstale) as Hneg.
  rewrite (_irq_handler_cases self pin e d Hd).
  assert (Hlt : (ticks_diff (hw_ticks e) (_last_time self) <? d) = true)
    by (apply Z.ltb_lt; lia).
  now rewrite Hlt.
Qed.

(** A handler invocation racing with [deinit] ends the same way whichever
    comes first: same button, same trace, or the same error. *)
Theorem deinit_commutes_with_handler (self : SimpleButton) (now : Z) (lvl : level)
    (e : env) :
  run [Deinit; Handler now lvl] self e = run [Handler now lvl; Deinit] self e.
Proof.
  cbn [run step]. unfold deinit, bind, ret, set_hw. cbn [_pin set_pin].
  destruct (_debounce_ms self) as [d | | s] eqn:Hd.
  - erewrite !_irq_handler_cases by (cbn [_debounce_ms set_pin]; exact Hd).
    cbn [hw_ticks hw_level trace _last_time _active_low _state set_pin].
    destruct (_ <? _); [reflexivity |]. cbn zeta.
    destruct (py_ne _ _); reflexivity.
  - unfold _irq_handler, bind, ticks_ms, lift, py_lt.
    cbn [_debounce_ms set_pin]. now rewrite Hd.
  - unfold _irq_handler, bind, ticks_ms, lift, py_lt.
    cbn [_debounce_ms set_pin]. now rewrite Hd.
Qed.

(** No operation touches the wiring: after any run the pin has the number,
    the direction and the pull it was opened with, and its handler is gone
    exactly when the run contains a [deinit] (nothing ever registers it
    again), otherwise it is as before. *)
Theorem run_keeps_pin_configuration (ops : list op) (self : SimpleButton) (e : env)
    (self' : SimpleButton) (e' : env) :
  run ops self e = Ok (self', e') ->
  pin_id (_pin self') = pin_id (_pin self)
  /\ pin_mode_of (_pin self') = pin_mode_of (_pin self)
  /\ pin_pull (_pin self') = pin_pull (_pin self)
  /\ irq_handler (_pin self')
     = (if existsb is_deinit ops then None else irq_handler (_pin self)).
Proof.
  revert self e. induction ops as [| o ops IH]; intros self e; cbn [run].
  - unfold ret. intros [= <- <-]. repeat split.
  - unfold bind. destruct (step o self e) as [[s1 e1] | x] eqn:Hs; [| discriminate].
    intros Hr. destruct (IH _ _ Hr) as (I1 & I2 & I3 & I4).
    cbn [existsb].
    destruct o as [now lvl | now lvl |]; cbn [step is_deinit orb] in Hs |- *.
    + unfold bind, set_hw in Hs. apply _irq_handler_pin in Hs.
      rewrite <- Hs. repeat split; assumption.
    + unfold bind, set_hw in Hs.
      assert (Hp : _pin s1 = _pin self).
      { destruct (irq_handler (_pin self)) as [[] |].
        - now apply _irq_handler_pin in Hs.
        - now injection Hs as <- _. }
      rewrite <- Hp. repeat split; assumption.
    + injection Hs as <- <-. cbn [_pin set_pin Pin_irq pin_id pin_mode_of
        pin_pull irq_handler] in I1, I2, I3, I4.
      repeat split; try assumption.
      rewrite I4. now destruct (existsb is_deinit ops).
Qed.

(** With a zero interval the button follows the line: when the times of the
    operations do not decrease and stay within a stretch shorter than half
    the period, the state after a handler invocation is the one the level it
    sampled stands for. *)
Theorem zero_debounce_follows_the_line (ops : list op) (self : SimpleButton)
    (e : env) (now : Z) (lvl : level) (lo : Z)
    (self' : SimpleButton) (e' : env) :
  _debounce_ms self = AInt 0 ->
  0 < TICKS_PERIOD ->
  Forall (in_window lo) (_last_time self :: op_times ops ++ [now]) ->
  StronglySorted Z.le (_last_time self :: op_times ops ++ [now]) ->
  run (ops ++ [Handler now lvl]) self e = Ok (self', e') ->
  logical_of (_state self') = candidate (_active_low self) lvl.
Proof.
  intros Hd HP. revert self e Hd.
  induction ops as [| o ops IH]; intros self e Hd Hw Hs Hr.
  - cbn [app run step op_times] in *. unfold bind, set_hw, ret in Hr.
    inversion Hw as [| ? ? Wl Wn]; subst. apply Forall_inv in Wn.
    inversion Hs as [| ? ? _ Hle]; subst. apply Forall_inv in Hle.
    destruct (_irq_handler_samples self (_pin self)
                (mkEnv now lvl (trace e)) 0 Hd) as (s1 & e1 & Hr1 & Hl & _).
    { cbn [hw_ticks]. rewrite (ticks_diff_window lo); auto. lia. }
    rewrite Hr1 in Hr. now injection Hr as <- _.
  - cbn [app run] in Hr. unfold bind in Hr.
    destruct (step o self e) as [[s1 e1] | x] eqn:Hst; [| discriminate].
    pose proof (step_ok_summary _ _ _ _ _ Hst) as ((Hkd & _ & _ & Hal) & Hc).
    rewrite <- Hal. apply (IH s1 e1); [congruence | | | exact Hr].
    + inversion Hw as [| ? ? Wl Wt]; subst.
      destruct Hc as [[[_ ->] _] | (_ & _ & Hin & _)].
      * constructor; [exact Wl |].
        destruct o; cbn [op_times app] in Wt; auto; now inversion Wt.
      * destruct o; cbn [op_times app In] in Wt, Hin; try tauto;
          destruct Hin as [<- | []]; exact Wt.
    + inversion Hs as [| ? ? St Sle]; subst.
      destruct Hc as [[[_ ->] _] | (_ & _ & Hin & _)].
      * destruct o; cbn [op_times app] in St, Sle |- *;
          try (constructor; assumption);
          (constructor; [now inversion St | now inversion Sle]).
      * destruct o; cbn [op_times app In] in St, Hin; try tauto;
          destruct Hin as [<- | []]; exact St.
Qed.

End Further.

(* ================================================================== *)
(** * Further concrete runs *)

Lemma settled_line_is_silent_witness :
  exists e',
    @run rp2 [Handler 100 High; Edge 200 High] example_button example_env
      = Ok (example_button, e')
    /\ fired (trace e') = fired (trace example_env).
Proof.
  apply (@settled_line_is_silent rp2 _ _ _ High example_button_wf eq_refl).
  constructor; [exists 100; left; reflexivity |].
  constructor; [exists 200; right; reflexivity | constructor].
Defined.

Lemma resting_level_never_reported_witness :
  exists e',
    @run rp2 [Edge 100 High; Edge 200 High] example_button example_env
      = Ok (example_button, e')
    /\ fired (trace e') = fired (trace example_env).
Proof.
  apply (@resting_level_never_reported rp2 _ _ _ _ _ _ _ _ _
           [Edge 100 High; Edge 200 High] example_env
           (example_button_init true High)).
  constructor; [exists 100; right; reflexivity |].
  constructor; [exists 200; right; reflexivity | constructor].
Defined.

Lemma callbacks_take_turns_witness :
  exists self' e',
    @run rp2 example_ops example_button example_env = Ok (self', e')
    /\ fired (trace e')
       = fired (trace example_env)
         ++ taking_turns 1%nat 2%nat (logical_of (_state example_button))
              (List.length
                 (@transitions rp2 example_ops example_button example_env)).
Proof.
  do 2 eexists. split; [reflexivity |].
  eapply (@callbacks_take_turns rp2 example_ops example_button example_env
            _ _ 1%nat 2%nat example_button_wf eq_refl eq_refl).
  reflexivity.
Defined.

Lemma run_holds_last_transition_witness :
  exists self' e',
    @run rp2 example_ops example_button example_env = Ok (self', e')
    /\ _state self'
       = last (map snd (@transitions rp2 example_ops example_button example_env))
           (_state example_button)
    /\ _last_time self'
       = last (map fst (@transitions rp2 example_ops example_button example_env))
           (_last_time example_button).
Proof.
  do 2 eexists. split; [reflexivity |].
  eapply (@run_holds_last_transition rp2 example_ops example_button example_env).
  reflexivity.
Defined.

Lemma bounce_burst_is_discarded_witness :
  exists self' e',
    @run rp2 [Handler 10 Low; Handler 20 High; Handler 49 Low]
      example_button example_env = Ok (self', e')
    /\ same_reading example_button self'
    /\ fired (trace e') = fired (trace example_env)
    /\ @transitions rp2 [Handler 10 Low; Handler 20 High; Handler 49 Low]
         example_button example_env = [].
Proof.
  apply (@bounce_burst_is_discarded rp2 _ example_button example_env 50 eq_refl).
  - vm_compute. discriminate.
  - repeat constructor; cbn; lia.
Defined.

Lemma debounce_spans_counter_wrap_witness :
  @_irq_handler rp2 example_button_before_wrap (_pin example_button)
    (mkEnv 5 Low [])
    = Ok (example_button_before_wrap, mkEnv 5 Low [E_ticks_ms])
  /\ (exists self' e',
         @_irq_handler rp2 example_button_before_wrap (_pin example_button)
           (mkEnv 50 Low []) = Ok (self', e')
         /\ logical_of (_state self') = Pressed).
Proof.
  split.
  - apply (@debounce_spans_counter_wrap rp2 example_button_before_wrap
             (_pin example_button) (mkEnv 5 Low []) 50 15 eq_refl);
      [split; [lia | reflexivity] | reflexivity | reflexivity].
  - apply (@debounce_spans_counter_wrap rp2 example_button_before_wrap
             (_pin example_button) (mkEnv 50 Low []) 50 60 eq_refl);
      [split; [lia | reflexivity] | reflexivity | lia].
Defined.

Lemma stale_timestamp_discards_witness :
  @_irq_handler rp2 example_button_zero (_pin example_button)
    (mkEnv (2 ^ 29) Low [])
    = Ok (example_button_zero, mkEnv (2 ^ 29) Low [E_ticks_ms]).
Proof.
  apply (@stale_timestamp_discards rp2 example_button_zero (_pin example_button)
           (mkEnv (2 ^ 29) Low []) 0 eq_refl); [lia | reflexivity |].
  vm_compute. discriminate.
Defined.

Lemma run_keeps_pin_configuration_witness :
  exists self' e',
    @run rp2 [Handler 100 Low; Deinit; Edge 200 High] example_button example_env
      = Ok (self', e')
    /\ pin_pull (_pin self') = Some 1
    /\ irq_handler (_pin self') = None.
Proof.
  do 2 eexists. split; [reflexivity |].
  refine (proj2 (proj2 (@run_keeps_pin_configuration rp2
                          [Handler 100 Low; Deinit; Edge 200 High]
                          example_button example_env _ _ _))).
  reflexivity.
Defined.

Lemma zero_debounce_follows_the_line_witness :
  exists self' e',
    @run rp2 ([Handler 100 Low; Handler 100 High] ++ [Handler 101 Low])
      example_button_zero example_env = Ok (self', e')
    /\ logical_of (_state self') = Pressed.
Proof.
  do 2 eexists. split; [reflexivity |].
  eapply (@zero_debounce_follows_the_line rp2 [Handler 100 Low; Handler 100 High]
            example_button_zero example_env 101 Low 0);
    [reflexivity | reflexivity | | | reflexivity].
  - repeat constructor; cbn; lia.
  - cbn [op_times app _last_time example_button_zero]. sorted_list.
Defined.
